(** * DateAxisBreak: breaks on a date-based axis

    A shallow embedding of [src/.internal/charts/axes/DateAxisBreak.ts]
    (the [DateAxisBreak] class: its constructor, the [startDate] and
    [endDate] accessors, and the public [gridInterval] / [gridDate]
    fields), followed by the properties of the break mechanism that the
    specification states about it.

    Conventions.
    - A JavaScript [Date] is an object: it has an identity and carries a
      time value in integral milliseconds ([getTime]).  Strict equality
      on objects ([===]) is identity, which is Leibniz equality on the
      record below.
    - A method is a state transformer over the receiver ([this]) that
      completes normally with a value or abruptly with an error; the
      state reached at the point of the throw is kept, so that "the
      state is unchanged after a failure" can be stated. *)

From Stdlib Require Import ZArith QArith Bool List String Lia Lqa.
From Stdlib Require Import Sorting.Permutation.
Import ListNotations.

Local Open Scope Z_scope.

(* ================================================================== *)
(** * Values the class handles *)
(* ================================================================== *)

(** [Date]: an object reference together with its time value. *)
Record Date : Type := mkDate {
  date_ref : positive;
  getTime  : Z
}.

Definition Date_eqb (a b : Date) : bool :=
  Pos.eqb (date_ref a) (date_ref b) && Z.eqb (getTime a) (getTime b).

(** [ITimeInterval] is imported from [core/defs/ITimeInterval]; only its
    shape matters here: a unit of time and a count. *)
Inductive TimeUnit : Type :=
  | millisecond | second | minute | hour | day | week | month | year.

Record ITimeInterval : Type := mkInterval {
  timeUnit : TimeUnit;
  count    : Z
}.

(** The error taxonomy of the break mechanism. *)
Inductive Error : Type :=
  | InvalidRangeError
  | OverlapError
  | NotFoundError.

(* ================================================================== *)
(** * The axis a break reports to *)
(* ================================================================== *)

(** The two requests a break makes on its axis. *)
Inductive AxisCall : Type :=
  | Invalidate          (* axis.invalidate()       : layout *)
  | InvalidateSeries.   (* axis.invalidateSeries() : series *)

(** Modelled from the spec: the axis collaborator ([DateAxis], with its
    [invalidate] and [invalidateSeries] methods and its validation pass)
    is not part of the source file.  Each request is an idempotent
    "mark dirty": it raises a flag that the next validation pass of the
    axis pulls and clears, doing one re-validation per raised flag.
    [requests] logs every call received, oldest first; [layoutPasses]
    and [seriesPasses] count the re-validations performed. *)
Record Axis : Type := mkAxis {
  layoutDirty  : bool;
  seriesDirty  : bool;
  requests     : list AxisCall;
  layoutPasses : nat;
  seriesPasses : nat
}.

(** Modelled from the spec: [axis.invalidate()], the layout "mark dirty". *)
Definition invalidate (a : Axis) : Axis :=
  {| layoutDirty  := true;
     seriesDirty  := seriesDirty a;
     requests     := requests a ++ [Invalidate];
     layoutPasses := layoutPasses a;
     seriesPasses := seriesPasses a |}.

(** Modelled from the spec: [axis.invalidateSeries()], the series "mark
    dirty". *)
Definition invalidateSeries (a : Axis) : Axis :=
  {| layoutDirty  := layoutDirty a;
     seriesDirty  := true;
     requests     := requests a ++ [InvalidateSeries];
     layoutPasses := layoutPasses a;
     seriesPasses := seriesPasses a |}.

(** Modelled from the spec: the validation pass of one render cycle,
    which consumes the dirty flags: one layout re-validation if the
    layout flag is raised, one series re-validation if the series flag
    is raised, and both flags cleared. *)
Definition validate (a : Axis) : Axis :=
  {| layoutDirty  := false;
     seriesDirty  := false;
     requests     := requests a;
     layoutPasses := (if layoutDirty a then S (layoutPasses a) else layoutPasses a);
     seriesPasses := (if seriesDirty a then S (seriesPasses a) else seriesPasses a) |}.

(* ================================================================== *)
(** * The state of a DateAxisBreak *)
(* ================================================================== *)

(** [IDateAxisBreakProperties]: both properties are optional. *)
Record IDateAxisBreakProperties : Type := mkProperties {
  startDate : option Date;
  endDate   : option Date
}.

(** [keyof IDateAxisBreakProperties], the names the accessors pass to
    [setPropertyValue] / [getPropertyValue]. *)
Inductive Key : Type := K_startDate | K_endDate.

(** The receiver.  [startValue], [endValue] and [axis] are inherited
    from [ValueAxisBreak]; a field that was never assigned is [None]
    ([undefined]). *)
Record DateAxisBreak : Type := mkBreak {
  className    : string;
  properties   : IDateAxisBreakProperties;
  startValue   : option Z;
  endValue     : option Z;
  gridInterval : option ITimeInterval;
  gridDate     : option Date;
  axis         : option Axis
}.

(* ------------------------------------------------------------------ *)
(** ** Methods as state transformers *)

Inductive Completion (A : Type) : Type :=
  | Normal (a : A)
  | Throw (e : Error).
Arguments Normal {A} a.
Arguments Throw {A} e.

Definition Method (A : Type) : Type :=
  DateAxisBreak -> Completion A * DateAxisBreak.

Definition ret {A : Type} (a : A) : Method A := fun this => (Normal a, this).

Definition bind {A B : Type} (m : Method A) (k : A -> Method B) : Method B :=
  fun this =>
    match m this with
    | (Normal a, this') => k a this'
    | (Throw e, this')  => (Throw e, this')
    end.

Declare Scope method_scope.
Delimit Scope method_scope with method.
Notation "x <- m ;; k" := (bind m (fun x => k))
  (at level 61, m at next level, right associativity) : method_scope.
Notation "m ;; k" := (bind m (fun _ => k))
  (at level 61, right associativity) : method_scope.

(** The state a method leaves behind, and how it completed. *)
Definition after {A : Type} (m : Method A) (this : DateAxisBreak) : DateAxisBreak :=
  snd (m this).
Definition completion {A : Type} (m : Method A) (this : DateAxisBreak) : Completion A :=
  fst (m this).

(* ------------------------------------------------------------------ *)
(** ** Inherited members *)

Definition getProp (k : Key) (p : IDateAxisBreakProperties) : option Date :=
  match k with
  | K_startDate => startDate p
  | K_endDate   => endDate p
  end.

Definition setProp (k : Key) (value : Date) (p : IDateAxisBreakProperties)
  : IDateAxisBreakProperties :=
  match k with
  | K_startDate => {| startDate := Some value; endDate := endDate p |}
  | K_endDate   => {| startDate := startDate p; endDate := Some value |}
  end.

Definition same_value (stored : option Date) (value : Date) : bool :=
  match stored with
  | Some d => Date_eqb d value
  | None   => false
  end.

(** Modelled from the spec: [setPropertyValue] belongs to the generic
    property-object base (attribute storage), which is not part of the
    source file.  It stores [value] under [k] and reports [true] when
    the stored value changed; when the very same value is already
    stored it does nothing and reports [false]. *)
Definition setPropertyValue (k : Key) (value : Date) : Method bool :=
  fun this =>
    if same_value (getProp k (properties this)) value then (Normal false, this)
    else (Normal true,
          {| className    := className this;
             properties   := setProp k value (properties this);
             startValue   := startValue this;
             endValue     := endValue this;
             gridInterval := gridInterval this;
             gridDate     := gridDate this;
             axis         := axis this |}).

(** Modelled from the spec: [getPropertyValue], the read side of the
    same attribute storage. *)
Definition getPropertyValue (k : Key) : Method (option Date) :=
  fun this => (Normal (getProp k (properties this)), this).

(** [this.axis], read. *)
Definition get_axis : Method (option Axis) :=
  fun this => (Normal (axis this), this).

(** A call [this.axis.f()] on the attached axis; the axis is shared, so
    the effect of [f] is visible through the break's reference. *)
Definition on_axis (f : Axis -> Axis) : Method unit :=
  fun this =>
    (Normal tt,
     {| className    := className this;
        properties   := properties this;
        startValue   := startValue this;
        endValue     := endValue this;
        gridInterval := gridInterval this;
        gridDate     := gridDate this;
        axis         := option_map f (axis this) |}).

(** The number [v] is the one stored already. *)
Definition same_number (stored : option Z) (v : Z) : bool :=
  match stored with
  | Some n => Z.eqb n v
  | None   => false
  end.

(** Modelled from the spec: the store behind the numeric bound
    [startValue], part of the same attribute storage as
    [setPropertyValue]: it stores [v] and reports [true] when the
    stored number changed. *)
Definition store_startValue (v : Z) : Method bool :=
  fun this =>
    if same_number (startValue this) v then (Normal false, this)
    else (Normal true,
          {| className    := className this;
             properties   := properties this;
             startValue   := Some v;
             endValue     := endValue this;
             gridInterval := gridInterval this;
             gridDate     := gridDate this;
             axis         := axis this |}).

(** Modelled from the spec: the store behind the numeric bound
    [endValue]. *)
Definition store_endValue (v : Z) : Method bool :=
  fun this =>
    if same_number (endValue this) v then (Normal false, this)
    else (Normal true,
          {| className    := className this;
             properties   := properties this;
             startValue   := startValue this;
             endValue     := Some v;
             gridInterval := gridInterval this;
             gridDate     := gridDate this;
             axis         := axis this |}).

Local Open Scope method_scope.

(** Modelled from the spec: the numeric bound [startValue] is inherited
    from the base break, which is not part of the source file, and the
    assignment [this.startValue = v] runs its setter.  An update of a
    numeric bound requests invalidation if the axis reference is set:
    when the stored number changes, the setter makes both requests on
    the attached axis; when [v] is the number stored already, it does
    nothing. *)
Definition set_startValue (v : Z) : Method unit :=
  changed <- store_startValue v ;;
  if changed : bool then
    a <- get_axis ;;
    match a with
    | Some _ => on_axis invalidate ;; on_axis invalidateSeries
    | None   => ret tt
    end
  else ret tt.

(** Modelled from the spec: the numeric bound [endValue], inherited
    like [startValue]; the assignment [this.endValue = v] runs the
    setter of the same shape. *)
Definition set_endValue (v : Z) : Method unit :=
  changed <- store_endValue v ;;
  if changed : bool then
    a <- get_axis ;;
    match a with
    | Some _ => on_axis invalidate ;; on_axis invalidateSeries
    | None   => ret tt
    end
  else ret tt.

Local Close Scope method_scope.

(* ================================================================== *)
(** * The class *)
(* ================================================================== *)

Local Open Scope method_scope.

(** [constructor()]: [super()], then the class name; theming is outside
    the break mechanism.  No bound is fixed and no axis is attached. *)
Definition new_DateAxisBreak : DateAxisBreak :=
  {| className    := "DateAxisBreak";
     properties   := {| startDate := None; endDate := None |};
     startValue   := None;
     endValue     := None;
     gridInterval := None;
     gridDate     := None;
     axis         := None |}.

(** [set startDate(value: Date)]. *)
Definition set_startDate (value : Date) : Method unit :=
  changed <- setPropertyValue K_startDate value ;;
  if changed : bool then
    set_startValue (getTime value) ;;
    a <- get_axis ;;
    match a with
    | Some _ => on_axis invalidate ;; on_axis invalidateSeries
    | None   => ret tt
    end
  else ret tt.

(** [get startDate(): Date]. *)
Definition get_startDate : Method (option Date) :=
  getPropertyValue K_startDate.

(** [set endDate(value: Date)]. *)
Definition set_endDate (value : Date) : Method unit :=
  changed <- setPropertyValue K_endDate value ;;
  if changed : bool then
    set_endValue (getTime value) ;;
    a <- get_axis ;;
    match a with
    | Some _ => on_axis invalidate ;; on_axis invalidateSeries
    | None   => ret tt
    end
  else ret tt.

(** [get endDate(): Date]. *)
Definition get_endDate : Method (option Date) :=
  getPropertyValue K_endDate.

(** Assignment to the public field [gridInterval]. *)
Definition assign_gridInterval (g : ITimeInterval) : Method unit :=
  fun this =>
    (Normal tt,
     {| className    := className this;
        properties   := properties this;
        startValue   := startValue this;
        endValue     := endValue this;
        gridInterval := Some g;
        gridDate     := gridDate this;
        axis         := axis this |}).

(** Assignment to the public field [gridDate]. *)
Definition assign_gridDate (d : Date) : Method unit :=
  fun this =>
    (Normal tt,
     {| className    := className this;
        properties   := properties this;
        startValue   := startValue this;
        endValue     := endValue this;
        gridInterval := gridInterval this;
        gridDate     := Some d;
        axis         := axis this |}).

(** Attaching the break to an axis (the back-reference [this.axis]). *)
Definition attach (a : Axis) (this : DateAxisBreak) : DateAxisBreak :=
  {| className    := className this;
     properties   := properties this;
     startValue   := startValue this;
     endValue     := endValue this;
     gridInterval := gridInterval this;
     gridDate     := gridDate this;
     axis         := Some a |}.

(** A mutation of a bound through one of the two setters, and the run
    of a sequence of them; a throw would abort the rest of the run. *)
Inductive Mutation : Type :=
  | SetStartDate (d : Date)
  | SetEndDate (d : Date).

Definition mutate (m : Mutation) : Method unit :=
  match m with
  | SetStartDate d => set_startDate d
  | SetEndDate d   => set_endDate d
  end.

Fixpoint run (ms : list Mutation) : Method unit :=
  match ms with
  | []       => ret tt
  | m :: ms' => mutate m ;; run ms'
  end.

(** The calendar view and the numeric view of one bound agree: a stored
    date comes with its own time value as the numeric bound. *)
Definition view_agrees (date : option Date) (value : option Z) : Prop :=
  match date with
  | Some d => value = Some (getTime d)
  | None   => True
  end.

Definition agrees (this : DateAxisBreak) : Prop :=
  view_agrees (startDate (properties this)) (startValue this) /\
  view_agrees (endDate (properties this)) (endValue this).

(** What a setter leaves on the axis when its body runs: the layout
    request, then the series request. *)
Definition notified (a : option Axis) : option Axis :=
  option_map (fun x => invalidateSeries (invalidate x)) a.

(** What the assignment of the number [v] to a numeric bound leaves on
    the axis: notified if the stored number changes, untouched
    otherwise. *)
Definition bound_notified (stored : option Z) (v : Z) (a : option Axis)
  : option Axis :=
  if same_number stored v then a else notified a.

(** A call is rejected as an invalid range: it throws
    [InvalidRangeError] and both bounds, in both views, are as before. *)
Definition rejected (m : Method unit) (this : DateAxisBreak) : Prop :=
  completion m this = Throw InvalidRangeError /\
  startValue (after m this) = startValue this /\
  endValue (after m this) = endValue this /\
  properties (after m this) = properties this.

(** The axis as it is after the next validation pass. *)
Definition render_cycle (this : DateAxisBreak) : option Axis :=
  option_map validate (axis this).

Local Close Scope method_scope.

(* ================================================================== *)
(** * The numeric break and the break set *)
(* ================================================================== *)

(** The base numeric break and the axis's collection of breaks are not
    part of the source file; they are written here from their
    contracts.  The axis's numeric domain is taken as the rationals, so
    that a fractional [breakSize] is exact. *)

Module NumericBreak.

Local Open Scope Q_scope.

Record t : Type := mk {
  startValue : Q;
  endValue   : Q;
  breakSize  : Q;
  axis       : option Axis
}.

(** Modelled from the spec: [setRange(start, end)] of the numeric
    break, which is not part of the source file.  It fails with
    [InvalidRangeError] if [start >= end]; on success it updates the
    bounds and requests invalidation if the axis reference is set. *)
Definition setRange (start end_ : Q) (b : t) : Completion unit * t :=
  if Qle_bool end_ start then (Throw InvalidRangeError, b)
  else (Normal tt,
        {| startValue := start;
           endValue   := end_;
           breakSize  := breakSize b;
           axis       := option_map (fun a => invalidateSeries (invalidate a)) (axis b) |}).

(** Modelled from the spec: [mapValue(raw)] of the numeric break, which
    is not part of the source file.  Values below [startValue] pass
    through unchanged, values at or above [endValue] are shifted left
    by [(endValue - startValue) * (1 - breakSize)], and values inside
    the break are compressed linearly between the two boundary
    offsets. *)
Definition mapValue (b : t) (raw : Q) : Q :=
  if negb (Qle_bool (startValue b) raw) then raw
  else if Qle_bool (endValue b) raw
       then raw - (endValue b - startValue b) * (1 - breakSize b)
       else raw - (raw - startValue b) * (1 - breakSize b).

End NumericBreak.

Module BreakSet.

Local Open Scope Q_scope.

(** The breaks of one axis, in ascending order of [startValue]. *)
Definition t : Type := list NumericBreak.t.

(** Two half-open intervals [[startValue, endValue)] intersect. *)
Definition overlaps (a b : NumericBreak.t) : bool :=
  negb (Qle_bool (NumericBreak.endValue b) (NumericBreak.startValue a)) &&
  negb (Qle_bool (NumericBreak.endValue a) (NumericBreak.startValue b)).

(** Insertion before the first break that does not start earlier. *)
Fixpoint insert (b : NumericBreak.t) (s : t) : t :=
  match s with
  | []     => [b]
  | x :: r =>
      if Qle_bool (NumericBreak.startValue b) (NumericBreak.startValue x)
      then b :: x :: r
      else x :: insert b r
  end.

(** Modelled from the spec: [add(break)] of the break set, which is
    not part of the source file.  It fails with [OverlapError] if the
    new break's interval overlaps any break of the set; on success it
    inserts the break in sorted order by [startValue]. *)
Definition add (b : NumericBreak.t) (s : t) : Completion unit * t :=
  if existsb (overlaps b) s then (Throw OverlapError, s)
  else (Normal tt, insert b s).

(** Ascending order of [startValue]. *)
Fixpoint ascending (s : t) : bool :=
  match s with
  | []     => true
  | x :: r =>
      match r with
      | []     => true
      | y :: _ => Qle_bool (NumericBreak.startValue x) (NumericBreak.startValue y)
      end && ascending r
  end.

End BreakSet.

(* ================================================================== *)
(** * Sample values *)
(* ================================================================== *)

Definition jan03 : Date := mkDate 1 259200000.
Definition jan05 : Date := mkDate 2 432000000.
Definition jan10 : Date := mkDate 3 864000000.
Definition jan01 : Date := mkDate 4 86400000.
Definition jan12 : Date := mkDate 5 1036800000.

(** An axis with nothing pending. *)
Definition idle_axis : Axis :=
  {| layoutDirty := false; seriesDirty := false; requests := [];
     layoutPasses := 0; seriesPasses := 0 |}.

(** A break over [jan03, jan05), not attached to any axis. *)
Definition weekend : DateAxisBreak :=
  {| className    := "DateAxisBreak";
     properties   := {| startDate := Some jan03; endDate := Some jan05 |};
     startValue   := Some (getTime jan03);
     endValue     := Some (getTime jan05);
     gridInterval := Some {| timeUnit := day; count := 1 |};
     gridDate     := Some jan03;
     axis         := None |}.

(** The same break attached to an idle axis. *)
Definition attached_weekend : DateAxisBreak := attach idle_axis weekend.

(** Numeric breaks, in days: [3, 5) fully collapsed, [10, 12) at half
    width, and [4, 11), which intersects both. *)
Definition first_break : NumericBreak.t :=
  NumericBreak.mk 3 5 0 None.
Definition second_break : NumericBreak.t :=
  NumericBreak.mk 10 12 (1 # 2) None.
Definition straddling_break : NumericBreak.t :=
  NumericBreak.mk 4 11 1 None.

(* ================================================================== *)
(** * Histories of a break *)
(* ================================================================== *)

(** The date the [startDate] getter is to return after a run of
    mutations: the one given to the last [startDate] assignment of the
    run, and the one stored before the run if there was none. *)
Fixpoint last_startDate (ms : list Mutation) (stored : option Date) : option Date :=
  match ms with
  | []                   => stored
  | SetStartDate d :: ms' => last_startDate ms' (Some d)
  | SetEndDate _ :: ms'   => last_startDate ms' stored
  end.

Fixpoint last_endDate (ms : list Mutation) (stored : option Date) : option Date :=
  match ms with
  | []                   => stored
  | SetStartDate _ :: ms' => last_endDate ms' stored
  | SetEndDate d :: ms'   => last_endDate ms' (Some d)
  end.

(** Each numeric bound is exactly the time value of the stored date, and
    is unset when no date is stored. *)
Definition synced (this : DateAxisBreak) : Prop :=
  startValue this = option_map getTime (startDate (properties this)) /\
  endValue this = option_map getTime (endDate (properties this)).

(** What the class lets its owner do to a break: assign one of the two
    dates, assign one of the two public grid fields, attach an axis. *)
Inductive Action : Type :=
  | Mutate (m : Mutation)
  | AssignGridInterval (g : ITimeInterval)
  | AssignGridDate (d : Date)
  | Attach (a : Axis).

Definition act (x : Action) (this : DateAxisBreak) : DateAxisBreak :=
  match x with
  | Mutate m             => after (mutate m) this
  | AssignGridInterval g => after (assign_gridInterval g) this
  | AssignGridDate d     => after (assign_gridDate d) this
  | Attach a             => attach a this
  end.

Definition perform (xs : list Action) (this : DateAxisBreak) : DateAxisBreak :=
  fold_left (fun s x => act x s) xs this.



(* ================================================================== *)
(** * Basic facts about the inherited members and the setters *)
(* ================================================================== *)

Lemma Date_eqb_spec (a b : Date) : reflect (a = b) (Date_eqb a b).
Proof.
  destruct a as [ra ta], b as [rb tb]; unfold Date_eqb; simpl.
  destruct (Pos.eqb_spec ra rb) as [-> | Hr]; simpl.
  - destruct (Z.eqb_spec ta tb) as [-> | Ht]; constructor; congruence.
  - constructor; congruence.
Qed.

Lemma same_value_true (stored : option Date) (d : Date) :
  same_value stored d = true <-> stored = Some d.
Proof.
  destruct stored as [s |]; simpl.
  - destruct (Date_eqb_spec s d); split; congruence.
  - split; discriminate.
Qed.

Lemma same_value_stored (d : Date) : same_value (Some d) d = true.
Proof. apply same_value_true; reflexivity. Qed.

Lemma same_number_true (stored : option Z) (v : Z) :
  same_number stored v = true <-> stored = Some v.
Proof.
  destruct stored as [n |]; simpl.
  - rewrite Z.eqb_eq. split; congruence.
  - split; discriminate.
Qed.

(** The assignment of a numeric bound: the number is stored, and the
    axis, if any, is notified when the number changes. *)
Lemma set_startValue_spec (this : DateAxisBreak) (v : Z) :
  set_startValue v this =
  (Normal tt,
   {| className    := className this;
      properties   := properties this;
      startValue   := Some v;
      endValue     := endValue this;
      gridInterval := gridInterval this;
      gridDate     := gridDate this;
      axis         := bound_notified (startValue this) v (axis this) |}).
Proof.
  unfold set_startValue, bind, store_startValue, bound_notified.
  destruct (same_number (startValue this) v) eqn:E; simpl.
  - apply same_number_true in E. destruct this; simpl in *. subst. reflexivity.
  - destruct (axis this); reflexivity.
Qed.

Lemma set_endValue_spec (this : DateAxisBreak) (v : Z) :
  set_endValue v this =
  (Normal tt,
   {| className    := className this;
      properties   := properties this;
      startValue   := startValue this;
      endValue     := Some v;
      gridInterval := gridInterval this;
      gridDate     := gridDate this;
      axis         := bound_notified (endValue this) v (axis this) |}).
Proof.
  unfold set_endValue, bind, store_endValue, bound_notified.
  destruct (same_number (endValue this) v) eqn:E; simpl.
  - apply same_number_true in E. destruct this; simpl in *. subst. reflexivity.
  - destruct (axis this); reflexivity.
Qed.

(** The [startDate] setter when the value is already stored: nothing
    happens. *)
Lemma set_startDate_same (this : DateAxisBreak) (d : Date) :
  same_value (startDate (properties this)) d = true ->
  set_startDate d this = (Normal tt, this).
Proof.
  intros H. unfold set_startDate, bind, setPropertyValue; simpl.
  rewrite H. reflexivity.
Qed.

(** The [startDate] setter when the value is new: the date and its time
    value are stored and the axis, if any, receives both requests from
    the setter, after those of the numeric bound if the number
    changed. *)
Lemma set_startDate_new (this : DateAxisBreak) (d : Date) :
  same_value (startDate (properties this)) d = false ->
  set_startDate d this =
  (Normal tt,
   {| className    := className this;
      properties   := {| startDate := Some d; endDate := endDate (properties this) |};
      startValue   := Some (getTime d);
      endValue     := endValue this;
      gridInterval := gridInterval this;
      gridDate     := gridDate this;
      axis         := notified (bound_notified (startValue this) (getTime d) (axis this)) |}).
Proof.
  intros H. unfold set_startDate, bind, setPropertyValue, getProp.
  rewrite H. rewrite set_startValue_spec. simpl.
  destruct (bound_notified (startValue this) (getTime d) (axis this)); reflexivity.
Qed.

Lemma set_endDate_same (this : DateAxisBreak) (d : Date) :
  same_value (endDate (properties this)) d = true ->
  set_endDate d this = (Normal tt, this).
Proof.
  intros H. unfold set_endDate, bind, setPropertyValue; simpl.
  rewrite H. reflexivity.
Qed.

Lemma set_endDate_new (this : DateAxisBreak) (d : Date) :
  same_value (endDate (properties this)) d = false ->
  set_endDate d this =
  (Normal tt,
   {| className    := className this;
      properties   := {| startDate := startDate (properties this); endDate := Some d |};
      startValue   := startValue this;
      endValue     := Some (getTime d);
      gridInterval := gridInterval this;
      gridDate     := gridDate this;
      axis         := notified (bound_notified (endValue this) (getTime d) (axis this)) |}).
Proof.
  intros H. unfold set_endDate, bind, setPropertyValue, getProp.
  rewrite H. rewrite set_endValue_spec. simpl.
  destruct (bound_notified (endValue this) (getTime d) (axis this)); reflexivity.
Qed.

(** Case analysis on a setter call: either the value was stored already
    or it is new. *)
Ltac setter_cases this d :=
  first
    [ destruct (same_value (startDate (properties this)) d) eqn:Hsame;
      [ rewrite (set_startDate_same this d Hsame)
      | rewrite (set_startDate_new this d Hsame) ]
    | destruct (same_value (endDate (properties this)) d) eqn:Hsame;
      [ rewrite (set_endDate_same this d Hsame)
      | rewrite (set_endDate_new this d Hsame) ] ].

(** Neither setter ever throws. *)
Lemma set_startDate_normal (this : DateAxisBreak) (d : Date) :
  completion (set_startDate d) this = Normal tt.
Proof. unfold completion. setter_cases this d; reflexivity. Qed.

Lemma set_endDate_normal (this : DateAxisBreak) (d : Date) :
  completion (set_endDate d) this = Normal tt.
Proof. unfold completion. setter_cases this d; reflexivity. Qed.

Lemma mutate_normal (m : Mutation) (this : DateAxisBreak) :
  mutate m this = (Normal tt, after (mutate m) this).
Proof.
  destruct m as [d | d]; simpl; unfold after.
  - pose proof (set_startDate_normal this d) as H. unfold completion in H.
    destruct (set_startDate d this) as [c s]; simpl in *; congruence.
  - pose proof (set_endDate_normal this d) as H. unfold completion in H.
    destruct (set_endDate d this) as [c s]; simpl in *; congruence.
Qed.

(** A run unfolds one mutation at a time. *)
Lemma run_cons (m : Mutation) (ms : list Mutation) (this : DateAxisBreak) :
  run (m :: ms) this = run ms (after (mutate m) this).
Proof.
  simpl. unfold bind. rewrite (mutate_normal m this). reflexivity.
Qed.


Lemma after_run_cons (m : Mutation) (ms : list Mutation) (this : DateAxisBreak) :
  after (run (m :: ms)) this = after (run ms) (after (mutate m) this).
Proof. unfold after at 1 2. rewrite run_cons. reflexivity. Qed.




(** A freshly constructed break has no date stored, so its views agree. *)
Lemma new_DateAxisBreak_agrees : agrees new_DateAxisBreak.
Proof. split; exact I. Qed.

Lemma attach_agrees (a : Axis) (this : DateAxisBreak) :
  agrees this -> agrees (attach a this).
Proof. intros H; exact H. Qed.

(* ================================================================== *)
(** * The date setters: validation, invalidation, frame *)
(* ================================================================== *)

(** C1, as stated, fails.  On the break over [jan03, jan05), setting
    [startDate] to [jan10], which lies after the current end, is not
    rejected: the call completes normally and the start is now [jan10]
    in both views ([setPropertyValue] has stored the date before the
    numeric bound is assigned).  Likewise setting [endDate] to [jan01],
    which lies before the current start. *)
Lemma startDate_past_end_not_rejected :
  (endValue weekend = Some (getTime jan05) /\ getTime jan05 <= getTime jan10) /\
  ~ rejected (set_startDate jan10) weekend /\
  completion (set_startDate jan10) weekend = Normal tt /\
  startValue (after (set_startDate jan10) weekend) = Some 864000000 /\
  startDate (properties (after (set_startDate jan10) weekend)) = Some jan10 /\
  (startValue weekend = Some (getTime jan03) /\ getTime jan01 <= getTime jan03) /\
  ~ rejected (set_endDate jan01) weekend /\
  completion (set_endDate jan01) weekend = Normal tt /\
  endValue (after (set_endDate jan01) weekend) = Some 86400000.
Proof.
  repeat split; try reflexivity; try (vm_compute; discriminate).
  - intros [H _]. vm_compute in H. discriminate.
  - intros [H _]. vm_compute in H. discriminate.
Qed.

(** C1, amended.  Setting [startDate] to a date that is not the one
    already stored and whose time value is at or after the current
    [endValue] does not fail: the call completes normally, the date is
    stored with its time value as [startValue], and [endValue] and
    [endDate] stay as they were.  Symmetrically for [endDate] against
    [startValue]. *)
Theorem setter_past_opposite_bound_succeeds
  (this : DateAxisBreak) (d : Date) (v : Z) :
  (endValue this = Some v -> v <= getTime d ->
   same_value (startDate (properties this)) d = false ->
   completion (set_startDate d) this = Normal tt /\
   startDate (properties (after (set_startDate d) this)) = Some d /\
   startValue (after (set_startDate d) this) = Some (getTime d) /\
   endValue (after (set_startDate d) this) = Some v /\
   endDate (properties (after (set_startDate d) this)) = endDate (properties this))
  /\
  (startValue this = Some v -> getTime d <= v ->
   same_value (endDate (properties this)) d = false ->
   completion (set_endDate d) this = Normal tt /\
   endDate (properties (after (set_endDate d) this)) = Some d /\
   endValue (after (set_endDate d) this) = Some (getTime d) /\
   startValue (after (set_endDate d) this) = Some v /\
   startDate (properties (after (set_endDate d) this)) = startDate (properties this)).
Proof.
  split; intros Hv _ Hnew; unfold completion, after.
  - rewrite (set_startDate_new this d Hnew); simpl. repeat split; assumption.
  - rewrite (set_endDate_new this d Hnew); simpl. repeat split; assumption.
Qed.

Lemma setter_past_opposite_bound_succeeds_witness :
  (completion (set_startDate jan10) weekend = Normal tt /\
   startDate (properties (after (set_startDate jan10) weekend)) = Some jan10 /\
   startValue (after (set_startDate jan10) weekend) = Some (getTime jan10) /\
   endValue (after (set_startDate jan10) weekend) = Some 432000000 /\
   endDate (properties (after (set_startDate jan10) weekend)) = endDate (properties weekend))
  /\
  (completion (set_endDate jan01) weekend = Normal tt /\
   endDate (properties (after (set_endDate jan01) weekend)) = Some jan01 /\
   endValue (after (set_endDate jan01) weekend) = Some (getTime jan01) /\
   startValue (after (set_endDate jan01) weekend) = Some 259200000 /\
   startDate (properties (after (set_endDate jan01) weekend)) = startDate (properties weekend)).
Proof.
  split.
  - apply (proj1 (setter_past_opposite_bound_succeeds weekend jan10 432000000));
      [reflexivity | unfold jan01, jan03, jan05, jan10; simpl; lia | reflexivity].
  - apply (proj2 (setter_past_opposite_bound_succeeds weekend jan01 259200000));
      [reflexivity | unfold jan01, jan03, jan05, jan10; simpl; lia | reflexivity].
Defined.

(** C2.  On a break attached to an axis, a call of the [startDate] or
    the [endDate] setter with a date that is not the one already stored
    makes both requests on the axis: among the calls the axis receives
    from the call there are [invalidate] (layout) and
    [invalidateSeries] (series), and both dirty flags are raised. *)
Theorem setters_request_both_invalidations
  (this : DateAxisBreak) (a : Axis) (d : Date) :
  axis this = Some a ->
  (same_value (startDate (properties this)) d = false ->
   exists a' calls,
     axis (after (set_startDate d) this) = Some a' /\
     requests a' = requests a ++ calls /\
     In Invalidate calls /\ In InvalidateSeries calls /\
     layoutDirty a' = true /\ seriesDirty a' = true)
  /\
  (same_value (endDate (properties this)) d = false ->
   exists a' calls,
     axis (after (set_endDate d) this) = Some a' /\
     requests a' = requests a ++ calls /\
     In Invalidate calls /\ In InvalidateSeries calls /\
     layoutDirty a' = true /\ seriesDirty a' = true).
Proof.
  intros Ha; split; intros Hnew; unfold after;
    [ rewrite (set_startDate_new this d Hnew)
    | rewrite (set_endDate_new this d Hnew) ];
    simpl; rewrite Ha; unfold bound_notified;
    match goal with |- context [same_number ?n ?v] => destruct (same_number n v) end;
    simpl; eexists; eexists; (split; [reflexivity |]); simpl;
    rewrite <- ?app_assoc; simpl;
    (split; [reflexivity |]); simpl; intuition.
Qed.

Lemma setters_request_both_invalidations_witness :
  (exists a' calls,
     axis (after (set_startDate jan01) attached_weekend) = Some a' /\
     requests a' = requests idle_axis ++ calls /\
     In Invalidate calls /\ In InvalidateSeries calls /\
     layoutDirty a' = true /\ seriesDirty a' = true)
  /\
  (exists a' calls,
     axis (after (set_endDate jan10) attached_weekend) = Some a' /\
     requests a' = requests idle_axis ++ calls /\
     In Invalidate calls /\ In InvalidateSeries calls /\
     layoutDirty a' = true /\ seriesDirty a' = true).
Proof.
  split.
  - apply (proj1 (setters_request_both_invalidations
                    attached_weekend idle_axis jan01 eq_refl)); reflexivity.
  - apply (proj2 (setters_request_both_invalidations
                    attached_weekend idle_axis jan10 eq_refl)); reflexivity.
Defined.

(** C3.  On a break attached to an axis, after [endDate] is set to a new
    date the next validation pass of the axis does exactly one layout
    re-validation and exactly one series re-validation, and this is so
    whether or not a second [endDate] mutation came before the pass:
    the repeated requests (at least four calls received when the second
    date is new as well) have collapsed into the two dirty flags, and a
    further pass finds nothing to do. *)
Theorem endDate_mutations_coalesce
  (this : DateAxisBreak) (a : Axis) (d1 d2 : Date) :
  axis this = Some a ->
  same_value (endDate (properties this)) d1 = false ->
  let once  := after (set_endDate d1) this in
  let twice := after (set_endDate d2) once in
  exists a1 a2,
    render_cycle once = Some a1 /\
    layoutPasses a1 = S (layoutPasses a) /\ seriesPasses a1 = S (seriesPasses a) /\
    render_cycle twice = Some a2 /\
    layoutPasses a2 = S (layoutPasses a) /\ seriesPasses a2 = S (seriesPasses a) /\
    layoutDirty a2 = false /\ seriesDirty a2 = false /\
    layoutPasses (validate a2) = S (layoutPasses a) /\
    seriesPasses (validate a2) = S (seriesPasses a) /\
    (Date_eqb d1 d2 = false ->
     exists calls,
       requests a2 = requests a ++ calls /\ (4 <= List.length calls)%nat).
Proof.
  intros Ha Hnew once twice. subst twice once. unfold render_cycle, after.
  rewrite (set_endDate_new this d1 Hnew); simpl.
  match goal with
  | |- context [set_endDate d2 ?s] => setter_cases s d2
  end; simpl in *; rewrite Ha; unfold bound_notified;
    repeat match goal with
           | |- context [same_number ?n ?v] => destruct (same_number n v)
           end;
    simpl; do 2 eexists; repeat split;
    try (intros Hd; congruence);
    intros _; simpl; rewrite <- ?app_assoc; simpl;
    eexists; (split; [reflexivity | simpl; lia]).
Qed.

Lemma endDate_mutations_coalesce_witness :
  exists a1 a2,
    render_cycle (after (set_endDate jan10) attached_weekend) = Some a1 /\
    layoutPasses a1 = 1%nat /\ seriesPasses a1 = 1%nat /\
    render_cycle (after (set_endDate jan12)
                    (after (set_endDate jan10) attached_weekend)) = Some a2 /\
    layoutPasses a2 = 1%nat /\ seriesPasses a2 = 1%nat /\
    layoutDirty a2 = false /\ seriesDirty a2 = false /\
    layoutPasses (validate a2) = 1%nat /\
    seriesPasses (validate a2) = 1%nat /\
    (Date_eqb jan10 jan12 = false ->
     exists calls,
       requests a2 = requests idle_axis ++ calls /\ (4 <= List.length calls)%nat).
Proof.
  apply (endDate_mutations_coalesce attached_weekend idle_axis jan10 jan12);
    reflexivity.
Defined.

(* ================================================================== *)
(** * The two views of a bound *)
(* ================================================================== *)



(** C5.  On a break with no axis attached, each setter completes
    normally, the date given is the stored date afterwards, its time
    value is the stored numeric bound whenever the date was not already
    the stored one, and there is still no axis: the invalidation calls
    are skipped. *)
Theorem setters_without_axis (this : DateAxisBreak) (d : Date) :
  axis this = None ->
  (completion (set_startDate d) this = Normal tt /\
   startDate (properties (after (set_startDate d) this)) = Some d /\
   (same_value (startDate (properties this)) d = false ->
    startValue (after (set_startDate d) this) = Some (getTime d)) /\
   axis (after (set_startDate d) this) = None)
  /\
  (completion (set_endDate d) this = Normal tt /\
   endDate (properties (after (set_endDate d) this)) = Some d /\
   (same_value (endDate (properties this)) d = false ->
    endValue (after (set_endDate d) this) = Some (getTime d)) /\
   axis (after (set_endDate d) this) = None).
Proof.
  intros Ha. split; unfold completion, after; setter_cases this d; simpl;
    rewrite ?Ha; unfold bound_notified;
    try match goal with
        | |- context [same_number ?n ?v] => destruct (same_number n v)
        end;
    repeat split; try discriminate;
    apply same_value_true; exact Hsame.
Qed.

Lemma setters_without_axis_witness :
  (completion (set_startDate jan01) weekend = Normal tt /\
   startDate (properties (after (set_startDate jan01) weekend)) = Some jan01 /\
   (same_value (startDate (properties weekend)) jan01 = false ->
    startValue (after (set_startDate jan01) weekend) = Some (getTime jan01)) /\
   axis (after (set_startDate jan01) weekend) = None)
  /\
  (completion (set_endDate jan01) weekend = Normal tt /\
   endDate (properties (after (set_endDate jan01) weekend)) = Some jan01 /\
   (same_value (endDate (properties weekend)) jan01 = false ->
    endValue (after (set_endDate jan01) weekend) = Some (getTime jan01)) /\
   axis (after (set_endDate jan01) weekend) = None).
Proof.
  apply (setters_without_axis weekend jan01). reflexivity.
Defined.

(** C6.  Each setter leaves [gridInterval] and [gridDate] and the
    opposite bound, in both views, as they were; hence whatever was last
    assigned to [gridInterval] or [gridDate] is still there after any
    sequence of date mutations. *)
Theorem setters_frame (this : DateAxisBreak) (d : Date) :
  (gridInterval (after (set_startDate d) this) = gridInterval this /\
   gridDate (after (set_startDate d) this) = gridDate this /\
   endValue (after (set_startDate d) this) = endValue this /\
   endDate (properties (after (set_startDate d) this)) = endDate (properties this))
  /\
  (gridInterval (after (set_endDate d) this) = gridInterval this /\
   gridDate (after (set_endDate d) this) = gridDate this /\
   startValue (after (set_endDate d) this) = startValue this /\
   startDate (properties (after (set_endDate d) this)) = startDate (properties this))
  /\
  (forall (g : ITimeInterval) (ms : list Mutation),
     gridInterval (after (run ms) (after (assign_gridInterval g) this)) = Some g)
  /\
  (forall (g : Date) (ms : list Mutation),
     gridDate (after (run ms) (after (assign_gridDate g) this)) = Some g).
Proof.
  assert (Hstep : forall m s,
             gridInterval (after (mutate m) s) = gridInterval s /\
             gridDate (after (mutate m) s) = gridDate s).
  { intros [x | x] s; simpl; unfold after; setter_cases s x; split; reflexivity. }
  assert (Hrun : forall ms s,
             gridInterval (after (run ms) s) = gridInterval s /\
             gridDate (after (run ms) s) = gridDate s).
  { induction ms as [| m ms IH]; intros s.
    - split; reflexivity.
    - rewrite after_run_cons.
      destruct (IH (after (mutate m) s)) as [-> ->]. apply Hstep. }
  split; [| split; [| split]].
  - unfold after; setter_cases this d; repeat split.
  - unfold after; setter_cases this d; repeat split.
  - intros g ms. destruct (Hrun ms (after (assign_gridInterval g) this)) as [-> _].
    reflexivity.
  - intros g ms. destruct (Hrun ms (after (assign_gridDate g) this)) as [_ ->].
    reflexivity.
Qed.

(** C7.  For every date [d] given to the [startDate] setter of a break
    whose views agree, the stored numeric bound is [d.getTime()] and
    reading [startDate] returns [d] itself; likewise for [endDate]. *)
Theorem date_round_trip (this : DateAxisBreak) (d : Date) :
  agrees this ->
  (startValue (after (set_startDate d) this) = Some (getTime d) /\
   completion get_startDate (after (set_startDate d) this) = Normal (Some d))
  /\
  (endValue (after (set_endDate d) this) = Some (getTime d) /\
   completion get_endDate (after (set_endDate d) this) = Normal (Some d)).
Proof.
  intros [Hs He].
  unfold completion, get_startDate, get_endDate, getPropertyValue, after.
  split; setter_cases this d; simpl; try (split; reflexivity);
    apply same_value_true in Hsame.
  - rewrite Hsame in Hs. split; [exact Hs | congruence].
  - rewrite Hsame in He. split; [exact He | congruence].
Qed.

Lemma date_round_trip_witness :
  (startValue (after (set_startDate jan10) weekend) = Some (getTime jan10) /\
   completion get_startDate (after (set_startDate jan10) weekend) = Normal (Some jan10))
  /\
  (endValue (after (set_endDate jan10) weekend) = Some (getTime jan10) /\
   completion get_endDate (after (set_endDate jan10) weekend) = Normal (Some jan10)).
Proof.
  apply (date_round_trip weekend jan10). simpl. split; reflexivity.
Defined.

(** C10.  Setting [startDate] (resp. [endDate]) to the date that is
    already stored does nothing at all: the call completes normally and
    the whole state, the numeric bound and the attached axis with the
    calls it has received included, is the one before the call. *)
Theorem setter_same_date_is_noop (this : DateAxisBreak) (d : Date) :
  (startDate (properties this) = Some d ->
   set_startDate d this = (Normal tt, this))
  /\
  (endDate (properties this) = Some d ->
   set_endDate d this = (Normal tt, this)).
Proof.
  split; intros H.
  - apply set_startDate_same. apply same_value_true. exact H.
  - apply set_endDate_same. apply same_value_true. exact H.
Qed.

Lemma setter_same_date_is_noop_witness :
  set_startDate jan03 attached_weekend = (Normal tt, attached_weekend) /\
  set_endDate jan05 attached_weekend = (Normal tt, attached_weekend).
Proof.
  split.
  - apply (proj1 (setter_same_date_is_noop attached_weekend jan03)). reflexivity.
  - apply (proj2 (setter_same_date_is_noop attached_weekend jan05)). reflexivity.
Defined.

(* ================================================================== *)
(** * The numeric break: range and coordinate mapping *)
(* ================================================================== *)

Local Open Scope Q_scope.

Lemma Qle_bool_false (x y : Q) : Qle_bool x y = false <-> y < x.
Proof.
  split; intros H.
  - apply Qnot_le_lt. intros Hle. apply Qle_bool_iff in Hle. congruence.
  - destruct (Qle_bool x y) eqn:E; [| reflexivity].
    apply Qle_bool_iff in E. apply Qle_not_lt in E. contradiction.
Qed.

(** The three pieces of [mapValue]. *)
Lemma mapValue_below (b : NumericBreak.t) (raw : Q) :
  raw < NumericBreak.startValue b -> NumericBreak.mapValue b raw = raw.
Proof.
  intros H. unfold NumericBreak.mapValue.
  rewrite (proj2 (Qle_bool_false _ _) H). reflexivity.
Qed.

Lemma mapValue_above (b : NumericBreak.t) (raw : Q) :
  NumericBreak.startValue b <= raw -> NumericBreak.endValue b <= raw ->
  NumericBreak.mapValue b raw =
  raw - (NumericBreak.endValue b - NumericBreak.startValue b) * (1 - NumericBreak.breakSize b).
Proof.
  intros Hs He. unfold NumericBreak.mapValue.
  rewrite (proj2 (Qle_bool_iff _ _) Hs), (proj2 (Qle_bool_iff _ _) He). reflexivity.
Qed.

Lemma mapValue_inside (b : NumericBreak.t) (raw : Q) :
  NumericBreak.startValue b <= raw -> raw < NumericBreak.endValue b ->
  NumericBreak.mapValue b raw =
  raw - (raw - NumericBreak.startValue b) * (1 - NumericBreak.breakSize b).
Proof.
  intros Hs He. unfold NumericBreak.mapValue.
  rewrite (proj2 (Qle_bool_iff _ _) Hs), (proj2 (Qle_bool_false _ _) He). reflexivity.
Qed.

(** [mapValue] is monotonic on a break whose bounds are in order and
    whose [breakSize] is not negative. *)
Lemma mapValue_monotone (b : NumericBreak.t) (x y : Q) :
  NumericBreak.startValue b <= NumericBreak.endValue b ->
  0 <= NumericBreak.breakSize b ->
  x <= y ->
  NumericBreak.mapValue b x <= NumericBreak.mapValue b y.
Proof.
  destruct b as [s e k ax]; simpl. intros Hse Hk Hxy.
  unfold NumericBreak.mapValue; simpl.
  destruct (Qle_bool s x) eqn:Hsx; destruct (Qle_bool s y) eqn:Hsy; simpl;
    try (destruct (Qle_bool e x) eqn:Hex); try (destruct (Qle_bool e y) eqn:Hey);
    repeat match goal with
           | H : Qle_bool _ _ = true |- _ => apply Qle_bool_iff in H
           | H : Qle_bool _ _ = false |- _ => apply Qle_bool_false in H
           end;
    try lra.
  - assert (0 <= (e - x) * k) by (apply Qmult_le_0_compat; lra). lra.
  - assert (0 <= (y - x) * k) by (apply Qmult_le_0_compat; lra). lra.
  - assert (0 <= (e - s) * k) by (apply Qmult_le_0_compat; lra). lra.
  - assert (0 <= (y - s) * k) by (apply Qmult_le_0_compat; lra). lra.
Qed.

(** C8.  For every break with a non-negative [breakSize] and every pair
    [start < end], [setRange] succeeds and stores the pair; on the
    resulting break [mapValue start <= mapValue end] (and [mapValue] is
    monotonic throughout), the compressed
    span [mapValue end - mapValue start] is [(end - start) * breakSize],
    and when [breakSize] is 1, [mapValue x] is [x] for every [x]. *)
Theorem setRange_then_mapValue (b : NumericBreak.t) (start end_ : Q) :
  start < end_ ->
  0 <= NumericBreak.breakSize b ->
  exists b',
    NumericBreak.setRange start end_ b = (Normal tt, b') /\
    NumericBreak.startValue b' = start /\
    NumericBreak.endValue b' = end_ /\
    NumericBreak.breakSize b' = NumericBreak.breakSize b /\
    NumericBreak.mapValue b' start <= NumericBreak.mapValue b' end_ /\
    (forall x y, x <= y -> NumericBreak.mapValue b' x <= NumericBreak.mapValue b' y) /\
    NumericBreak.mapValue b' end_ - NumericBreak.mapValue b' start
      == (end_ - start) * NumericBreak.breakSize b' /\
    (NumericBreak.breakSize b == 1 ->
     forall x, NumericBreak.mapValue b' x == x).
Proof.
  intros Hlt Hsize.
  unfold NumericBreak.setRange.
  rewrite (proj2 (Qle_bool_false end_ start) Hlt).
  eexists; split; [reflexivity |].
  set (b' := NumericBreak.mk _ _ _ _).
  assert (Hstart : NumericBreak.mapValue b' start
                   = start - (start - start) * (1 - NumericBreak.breakSize b)).
  { apply (mapValue_inside b' start); simpl; [apply Qle_refl | exact Hlt]. }
  assert (Hend : NumericBreak.mapValue b' end_
                 = end_ - (end_ - start) * (1 - NumericBreak.breakSize b)).
  { apply (mapValue_above b' end_); simpl; [apply Qlt_le_weak; exact Hlt | apply Qle_refl]. }
  repeat split; try reflexivity.
  - rewrite Hstart, Hend.
    assert (Hprod : 0 <= (end_ - start) * NumericBreak.breakSize b).
    { apply Qmult_le_0_compat; [lra | exact Hsize]. }
    lra.
  - intros x y Hxy. apply mapValue_monotone; simpl;
      [apply Qlt_le_weak; exact Hlt | exact Hsize | exact Hxy].
  - rewrite Hstart, Hend. simpl. ring.
  - intros Hone x. unfold NumericBreak.mapValue; simpl.
    destruct (Qle_bool start x); simpl; [| reflexivity].
    destruct (Qle_bool end_ x); rewrite Hone; ring.
Qed.

Lemma setRange_then_mapValue_witness :
  exists b',
    NumericBreak.setRange 10 12 first_break = (Normal tt, b') /\
    NumericBreak.startValue b' = 10 /\
    NumericBreak.endValue b' = 12 /\
    NumericBreak.breakSize b' = NumericBreak.breakSize first_break /\
    NumericBreak.mapValue b' 10 <= NumericBreak.mapValue b' 12 /\
    (forall x y, x <= y -> NumericBreak.mapValue b' x <= NumericBreak.mapValue b' y) /\
    NumericBreak.mapValue b' 12 - NumericBreak.mapValue b' 10
      == (12 - 10) * NumericBreak.breakSize b' /\
    (NumericBreak.breakSize first_break == 1 ->
     forall x, NumericBreak.mapValue b' x == x).
Proof.
  apply (setRange_then_mapValue first_break 10 12).
  - reflexivity.
  - unfold Qle; simpl; lia.
Defined.

(* ================================================================== *)
(** * The break set: adding a break *)
(* ================================================================== *)

(** [overlaps] is the intersection of the two half-open intervals. *)
Lemma overlaps_spec (a b : NumericBreak.t) :
  BreakSet.overlaps a b = true <->
  NumericBreak.startValue a < NumericBreak.endValue b /\
  NumericBreak.startValue b < NumericBreak.endValue a.
Proof.
  unfold BreakSet.overlaps.
  rewrite andb_true_iff, !negb_true_iff, !Qle_bool_false. tauto.
Qed.

Lemma insert_permutation (b : NumericBreak.t) (s : BreakSet.t) :
  Permutation (b :: s) (BreakSet.insert b s).
Proof.
  induction s as [| x r IH]; simpl.
  - apply Permutation_refl.
  - destruct (Qle_bool (NumericBreak.startValue b) (NumericBreak.startValue x)).
    + apply Permutation_refl.
    + apply perm_trans with (x :: b :: r).
      * apply perm_swap.
      * apply perm_skip. exact IH.
Qed.

Lemma insert_ascending (b : NumericBreak.t) (s : BreakSet.t) :
  BreakSet.ascending s = true -> BreakSet.ascending (BreakSet.insert b s) = true.
Proof.
  induction s as [| x r IH]; intros Hs.
  - reflexivity.
  - simpl BreakSet.insert.
    destruct (Qle_bool (NumericBreak.startValue b) (NumericBreak.startValue x)) eqn:Hbx.
    + change (Qle_bool (NumericBreak.startValue b) (NumericBreak.startValue x)
              && BreakSet.ascending (x :: r) = true).
      rewrite Hbx, Hs. reflexivity.
    + assert (Hxb : Qle_bool (NumericBreak.startValue x) (NumericBreak.startValue b) = true).
      { apply Qle_bool_iff, Qlt_le_weak, Qle_bool_false. exact Hbx. }
      destruct r as [| y r'].
      * simpl. rewrite Hxb. reflexivity.
      * simpl in Hs. apply andb_true_iff in Hs. destruct Hs as [Hxy Hr].
        specialize (IH Hr). simpl BreakSet.insert in *.
        destruct (Qle_bool (NumericBreak.startValue b) (NumericBreak.startValue y)).
        -- change (Qle_bool (NumericBreak.startValue x) (NumericBreak.startValue b)
                   && BreakSet.ascending (b :: y :: r') = true).
           rewrite Hxb, IH. reflexivity.
        -- change (Qle_bool (NumericBreak.startValue x) (NumericBreak.startValue y)
                   && BreakSet.ascending (y :: BreakSet.insert b r') = true).
           rewrite Hxy, IH. reflexivity.
Qed.

(** C9.  Adding a break that overlaps some break of the set fails with
    [OverlapError] and the set is the one before the call; adding a
    break that overlaps none succeeds, the new set holds the new break
    and the old ones, and it is in ascending order of [startValue] if
    the old set was. *)
Theorem add_overlap_or_insert (s : BreakSet.t) (b : NumericBreak.t) :
  ((exists x, In x s /\ BreakSet.overlaps b x = true) ->
   BreakSet.add b s = (Throw OverlapError, s))
  /\
  ((forall x, In x s -> BreakSet.overlaps b x = false) ->
   exists s',
     BreakSet.add b s = (Normal tt, s') /\
     Permutation (b :: s) s' /\
     (BreakSet.ascending s = true -> BreakSet.ascending s' = true)).
Proof.
  unfold BreakSet.add. split; intros H.
  - rewrite (proj2 (existsb_exists (BreakSet.overlaps b) s) H). reflexivity.
  - destruct (existsb (BreakSet.overlaps b) s) eqn:E.
    + apply existsb_exists in E. destruct E as [x [Hin Hov]].
      rewrite (H x Hin) in Hov. discriminate.
    + exists (BreakSet.insert b s). split; [reflexivity |]. split.
      * apply insert_permutation.
      * apply insert_ascending.
Qed.

Lemma add_overlap_or_insert_witness :
  BreakSet.add straddling_break [first_break; second_break]
    = (Throw OverlapError, [first_break; second_break])
  /\
  (exists s',
     BreakSet.add second_break [first_break] = (Normal tt, s') /\
     Permutation [second_break; first_break] s' /\
     (BreakSet.ascending [first_break] = true -> BreakSet.ascending s' = true)).
Proof.
  split.
  - apply (proj1 (add_overlap_or_insert [first_break; second_break] straddling_break)).
    exists first_break. split; [left; reflexivity | reflexivity].
  - apply (proj2 (add_overlap_or_insert [first_break] second_break)).
    intros x [Hx | []]. rewrite <- Hx. reflexivity.
Defined.

(* ================================================================== *)
(** * How the setters compose *)
(* ================================================================== *)

Local Close Scope Q_scope.
Local Open Scope method_scope.

(** A setter call in sequence with what follows it. *)
Lemma bind_set_startDate {B : Type} (d : Date) (k : Method B) (this : DateAxisBreak) :
  (set_startDate d ;; k) this = k (after (set_startDate d) this).
Proof.
  unfold bind, after. pose proof (set_startDate_normal this d) as H.
  unfold completion in H. destruct (set_startDate d this) as [c s'].
  simpl in *. rewrite H. reflexivity.
Qed.

Lemma bind_set_endDate {B : Type} (d : Date) (k : Method B) (this : DateAxisBreak) :
  (set_endDate d ;; k) this = k (after (set_endDate d) this).
Proof.
  unfold bind, after. pose proof (set_endDate_normal this d) as H.
  unfold completion in H. destruct (set_endDate d this) as [c s'].
  simpl in *. rewrite H. reflexivity.
Qed.

(** The state a setter leaves, in one expression for both cases. *)
Lemma after_set_startDate (this : DateAxisBreak) (d : Date) :
  after (set_startDate d) this =
  if same_value (startDate (properties this)) d then this
  else {| className    := className this;
          properties   := {| startDate := Some d; endDate := endDate (properties this) |};
          startValue   := Some (getTime d);
          endValue     := endValue this;
          gridInterval := gridInterval this;
          gridDate     := gridDate this;
          axis         := notified (bound_notified (startValue this) (getTime d) (axis this)) |}.
Proof. unfold after. setter_cases this d; reflexivity. Qed.

Lemma after_set_endDate (this : DateAxisBreak) (d : Date) :
  after (set_endDate d) this =
  if same_value (endDate (properties this)) d then this
  else {| className    := className this;
          properties   := {| startDate := startDate (properties this); endDate := Some d |};
          startValue   := startValue this;
          endValue     := Some (getTime d);
          gridInterval := gridInterval this;
          gridDate     := gridDate this;
          axis         := notified (bound_notified (endValue this) (getTime d) (axis this)) |}.
Proof. unfold after. setter_cases this d; reflexivity. Qed.

(** X1.  The two setters commute: assigning [startDate] then [endDate]
    completes in the same way and leaves the same state, the calls
    received by the axis included, as assigning [endDate] then
    [startDate]. *)
Theorem setters_commute (this : DateAxisBreak) (d1 d2 : Date) :
  (set_startDate d1 ;; set_endDate d2) this =
  (set_endDate d2 ;; set_startDate d1) this.
Proof.
  rewrite bind_set_startDate, bind_set_endDate.
  rewrite (surjective_pairing (set_endDate d2 _)).
  rewrite (surjective_pairing (set_startDate d1 _)).
  fold (completion (set_endDate d2) (after (set_startDate d1) this)).
  fold (completion (set_startDate d1) (after (set_endDate d2) this)).
  fold (after (set_endDate d2) (after (set_startDate d1) this)).
  fold (after (set_startDate d1) (after (set_endDate d2) this)).
  rewrite set_startDate_normal, set_endDate_normal. f_equal.
  rewrite (after_set_endDate (after (set_startDate d1) this)).
  rewrite (after_set_startDate (after (set_endDate d2) this)).
  rewrite (after_set_startDate this), (after_set_endDate this).
  destruct (same_value (startDate (properties this)) d1) eqn:H1;
    destruct (same_value (endDate (properties this)) d2) eqn:H2;
    simpl; rewrite ?H1, ?H2; try reflexivity.
  unfold bound_notified.
  destruct (same_number (startValue this) (getTime d1));
    destruct (same_number (endValue this) (getTime d2)); reflexivity.
Qed.

(** X2.  Assigning the same date twice in a row is the same as assigning
    it once: the second call finds the date stored and does nothing, so
    the axis is not notified again. *)
Theorem setter_twice_is_once (this : DateAxisBreak) (d : Date) :
  (set_startDate d ;; set_startDate d) this = set_startDate d this /\
  (set_endDate d ;; set_endDate d) this = set_endDate d this.
Proof.
  split.
  - rewrite bind_set_startDate. unfold after. setter_cases this d; simpl.
    + apply set_startDate_same; exact Hsame.
    + apply set_startDate_same; simpl. apply same_value_stored.
  - rewrite bind_set_endDate. unfold after. setter_cases this d; simpl.
    + apply set_endDate_same; exact Hsame.
    + apply set_endDate_same; simpl. apply same_value_stored.
Qed.

(* ================================================================== *)
(** * Runs of mutations *)
(* ================================================================== *)

Lemma mutate_startDate (m : Mutation) (this : DateAxisBreak) :
  startDate (properties (after (mutate m) this))
  = last_startDate [m] (startDate (properties this)).
Proof.
  destruct m as [d | d]; simpl.
  - rewrite after_set_startDate.
    destruct (same_value (startDate (properties this)) d) eqn:E; simpl.
    + apply same_value_true. exact E.
    + reflexivity.
  - rewrite after_set_endDate.
    destruct (same_value (endDate (properties this)) d); reflexivity.
Qed.

Lemma mutate_endDate (m : Mutation) (this : DateAxisBreak) :
  endDate (properties (after (mutate m) this))
  = last_endDate [m] (endDate (properties this)).
Proof.
  destruct m as [d | d]; simpl.
  - rewrite after_set_startDate.
    destruct (same_value (startDate (properties this)) d); reflexivity.
  - rewrite after_set_endDate.
    destruct (same_value (endDate (properties this)) d) eqn:E; simpl.
    + apply same_value_true. exact E.
    + reflexivity.
Qed.

Lemma run_dates (ms : list Mutation) (this : DateAxisBreak) :
  startDate (properties (after (run ms) this))
  = last_startDate ms (startDate (properties this)) /\
  endDate (properties (after (run ms) this))
  = last_endDate ms (endDate (properties this)).
Proof.
  revert this. induction ms as [| m ms IH]; intros this.
  - split; reflexivity.
  - rewrite after_run_cons.
    destruct (IH (after (mutate m) this)) as [-> ->].
    rewrite mutate_startDate, mutate_endDate.
    destruct m; split; reflexivity.
Qed.

Lemma mutate_synced (m : Mutation) (this : DateAxisBreak) :
  synced this -> synced (after (mutate m) this).
Proof.
  intros [Hs He]. destruct m as [d | d]; simpl.
  - rewrite after_set_startDate.
    destruct (same_value (startDate (properties this)) d); split; simpl; auto.
  - rewrite after_set_endDate.
    destruct (same_value (endDate (properties this)) d); split; simpl; auto.
Qed.

Lemma run_synced (ms : list Mutation) (this : DateAxisBreak) :
  synced this -> synced (after (run ms) this).
Proof.
  revert this. induction ms as [| m ms IH]; intros this H.
  - exact H.
  - rewrite after_run_cons. apply IH, mutate_synced, H.
Qed.

(** X3.  After any run of date mutations on a break whose numeric bounds
    are those of its stored dates, reading [startDate] returns the date
    of the last [startDate] assignment of the run (the date stored
    before, if the run has none), [startValue] is the time value of
    that date, and likewise for [endDate] and [endValue]: assignments
    to one bound never show through the other, and the last write
    wins. *)
Theorem run_reads_last_written (this : DateAxisBreak) (ms : list Mutation) :
  synced this ->
  let this' := after (run ms) this in
  completion get_startDate this'
    = Normal (last_startDate ms (startDate (properties this))) /\
  completion get_endDate this'
    = Normal (last_endDate ms (endDate (properties this))) /\
  startValue this'
    = option_map getTime (last_startDate ms (startDate (properties this))) /\
  endValue this'
    = option_map getTime (last_endDate ms (endDate (properties this))).
Proof.
  intros H this'.
  destruct (run_dates ms this) as [Hs He].
  destruct (run_synced ms this H) as [Vs Ve].
  fold this' in Hs, He, Vs, Ve.
  unfold completion, get_startDate, get_endDate, getPropertyValue; simpl.
  rewrite Vs, Ve, Hs, He. repeat split.
Qed.

Lemma run_reads_last_written_witness :
  let ms := [SetEndDate jan12; SetStartDate jan01; SetEndDate jan10; SetEndDate jan10] in
  let this' := after (run ms) weekend in
  completion get_startDate this'
    = Normal (last_startDate ms (startDate (properties weekend))) /\
  completion get_endDate this'
    = Normal (last_endDate ms (endDate (properties weekend))) /\
  startValue this'
    = option_map getTime (last_startDate ms (startDate (properties weekend))) /\
  endValue this'
    = option_map getTime (last_endDate ms (endDate (properties weekend))).
Proof.
  apply (run_reads_last_written weekend
           [SetEndDate jan12; SetStartDate jan01; SetEndDate jan10; SetEndDate jan10]).
  split; reflexivity.
Defined.








(* ================================================================== *)
(** * Breaks made by the constructor *)
(* ================================================================== *)

Lemma act_keeps (x : Action) (this : DateAxisBreak) :
  synced this ->
  synced (act x this) /\ className (act x this) = className this.
Proof.
  intros H. destruct x as [m | g | d | a]; simpl.
  - split; [apply mutate_synced; exact H |].
    destruct m as [d | d]; simpl;
      rewrite ?after_set_startDate, ?after_set_endDate;
      match goal with |- context [if ?c then _ else _] => destruct c end;
      reflexivity.
  - split; [exact H | reflexivity].
  - split; [exact H | reflexivity].
  - split; [exact H | reflexivity].
Qed.

Lemma perform_keeps (xs : list Action) (this : DateAxisBreak) :
  synced this ->
  synced (perform xs this) /\ className (perform xs this) = className this.
Proof.
  revert this. induction xs as [| x xs IH]; intros this H.
  - split; [exact H | reflexivity].
  - simpl. destruct (act_keeps x this H) as [Hs Hc].
    destruct (IH (act x this) Hs) as [Hs' Hc'].
    split; [exact Hs' | congruence].
Qed.

(** X5.  Whatever is done to a break made by the constructor through the
    members of the class (date assignments, assignments to the grid
    fields, attaching an axis), it still carries the class name
    ["DateAxisBreak"], and each numeric bound is set exactly when the
    corresponding date is, to the time value of that date. *)
Theorem constructed_break_invariant (xs : list Action) :
  let this := perform xs new_DateAxisBreak in
  className this = "DateAxisBreak"%string /\
  startValue this = option_map getTime (startDate (properties this)) /\
  endValue this = option_map getTime (endDate (properties this)).
Proof.
  intros this.
  assert (H0 : synced new_DateAxisBreak) by (split; reflexivity).
  destruct (perform_keeps xs new_DateAxisBreak H0) as [[Hs He] Hc].
  fold this in Hs, He, Hc.
  split; [exact Hc |]. split; assumption.
Qed.
